(** * Model building utilities (src/py/models/utils/model.py)

    The module defines three factory functions, [create_dense_stack],
    [self_attention_block] and [pooling_attention].  Each one only calls
    layer constructors of the deep-learning framework ([Dense],
    [LayerNormalization], [ReLU]) and of the sibling attention module
    ([SAB], [PMA]).  None of these constructors is defined in the module, so
    the embedding takes them as a parameter: a _framework_ decides what a
    constructor call returns, whether it raises, and how it changes the
    state of the interpreter.  The factory functions are written once, in a
    state-and-exception monad over an arbitrary framework, in the evaluation
    order of the Python source. *)

From Stdlib Require Import ZArith List String Bool Lia.
From Stdlib Require Import DecimalString.
From Stdlib Require DecimalPos DecimalZ.
Import ListNotations.

Local Open Scope string_scope.
Local Open Scope Z_scope.

Set Implicit Arguments.

(** ** Python values used by the module *)

(** [str(z)] for a Python integer: its decimal representation. *)
Definition str (z : Z) : string := NilZero.string_of_int (Z.to_int z).

(** [len(l)] as a Python integer. *)
Definition len {A : Type} (l : list A) : Z := Z.of_nat (List.length l).

(** [enumerate(l)]: the elements paired with their index, counted from
    [start] (Python's default start is 0). *)
Fixpoint enumerate_from {A : Type} (start : Z) (l : list A) : list (Z * A) :=
  match l with
  | [] => []
  | a :: l' => (start, a) :: enumerate_from (start + 1) l'
  end.

Definition enumerate {A : Type} (l : list A) : list (Z * A) :=
  enumerate_from 0 l.

(** ** Constructor calls *)

(** Keyword arguments of [tf.keras.layers.Dense], as far as the module sets
    them.  [activation] is [None] when the call does not pass it. *)
Record dense_kwargs : Type := DenseKw {
  units : Z;
  activation : option string;
  kernel_initializer : string;
  bias_initializer : string;
  dense_name : string
}.

(** Keyword arguments of the attention module's [SAB]; [Obj] is the type of
    layer objects. *)
Record sab_kwargs (Obj : Type) : Type := SabKw {
  sab_num_heads : Z;
  sab_depth : Z;
  sab_rff : Obj;
  sab_use_layer_norm : bool;
  sab_query_kernel_initializer : string;
  sab_query_bias_initializer : string;
  sab_key_kernel_initializer : string;
  sab_key_bias_initializer : string;
  sab_value_kernel_initializer : string;
  sab_value_bias_initializer : string;
  sab_output_kernel_initializer : string;
  sab_output_bias_initializer : string;
  sab_name : string
}.

(** Keyword arguments of the attention module's [PMA]. *)
Record pma_kwargs (Obj : Type) : Type := PmaKw {
  pma_num_seeds : Z;
  pma_num_heads : Z;
  pma_depth : Z;
  pma_rff : Obj;
  pma_rff_s : Obj;
  pma_use_layer_norm : bool;
  pma_seed_initializer : string;
  pma_query_kernel_initializer : string;
  pma_query_bias_initializer : string;
  pma_key_kernel_initializer : string;
  pma_key_bias_initializer : string;
  pma_value_kernel_initializer : string;
  pma_value_bias_initializer : string;
  pma_output_kernel_initializer : string;
  pma_output_bias_initializer : string;
  pma_name : string
}.

(** A constructor call: which constructor, with which keyword arguments. *)
Inductive call (Obj : Type) : Type :=
| CDense (kw : dense_kwargs)
| CLayerNormalization (name : string)
| CReLU (name : string)
| CSAB (kw : sab_kwargs Obj)
| CPMA (kw : pma_kwargs Obj).

Arguments CDense {Obj} kw.
Arguments CLayerNormalization {Obj} name.
Arguments CReLU {Obj} name.

(** The constructor named by a call. *)
Inductive ctor : Type := KDense | KLayerNormalization | KReLU | KSAB | KPMA.

Definition ctor_of {Obj : Type} (c : call Obj) : ctor :=
  match c with
  | CDense _ => KDense
  | CLayerNormalization _ => KLayerNormalization
  | CReLU _ => KReLU
  | CSAB _ => KSAB
  | CPMA _ => KPMA
  end.

Definition ctor_eqb (a b : ctor) : bool :=
  match a, b with
  | KDense, KDense | KLayerNormalization, KLayerNormalization
  | KReLU, KReLU | KSAB, KSAB | KPMA, KPMA => true
  | _, _ => false
  end.

(** ** The monad of Python computations *)

(** Outcome of a Python expression: a value, or a raised exception. *)
Inductive result (Exn A : Type) : Type :=
| Ok (a : A)
| Raise (e : Exn).

Arguments Ok {Exn A} a.
Arguments Raise {Exn A} e.

Definition is_ok {Exn A : Type} (r : result Exn A) : bool :=
  match r with Ok _ => true | Raise _ => false end.

(** A computation runs in an interpreter state [World] and returns the new
    state with its outcome.  State changes made before an exception is raised
    stay. *)
Definition M (Exn World A : Type) : Type := World -> World * result Exn A.

Definition ret {Exn World A : Type} (a : A) : M Exn World A :=
  fun w => (w, Ok a).

Definition bind {Exn World A B : Type}
    (m : M Exn World A) (k : A -> M Exn World B) : M Exn World B :=
  fun w =>
    match m w with
    | (w', Ok a) => k a w'
    | (w', Raise e) => (w', Raise e)
    end.

Notation "x <- m ;; k" := (bind m (fun x => k))
  (at level 61, m at next level, right associativity).

(** A framework gives the behaviour of every constructor call. *)
Definition Framework (Obj Exn World : Type) : Type :=
  call Obj -> M Exn World Obj.

(** The comprehension [[y for x in xs for y in f(x)]], where evaluating
    [f(x)] has effects: the inner lists are evaluated in the order of [xs]
    and concatenated. *)
Fixpoint flat_mapM {Exn World A B : Type}
    (f : A -> M Exn World (list B)) (xs : list A) : M Exn World (list B) :=
  match xs with
  | [] => ret []
  | x :: xs' =>
      ys <- f x ;;
      rest <- flat_mapM f xs' ;;
      ret (ys ++ rest)%list
  end.

(** ** The module *)

Section Model.

Context {Obj Exn World : Type}.
Variable fw : Framework Obj Exn World.

(** The constructors the module imports. *)
Definition Dense (kw : dense_kwargs) : M Exn World Obj := fw (CDense kw).
Definition LayerNormalization (name : string) : M Exn World Obj :=
  fw (CLayerNormalization name).
Definition ReLU (name : string) : M Exn World Obj := fw (CReLU name).
Definition SAB (kw : sab_kwargs Obj) : M Exn World Obj := fw (CSAB kw).
Definition PMA (kw : pma_kwargs Obj) : M Exn World Obj := fw (CPMA kw).

(** The inner list of the comprehension of [create_dense_stack], for one
    pair [(i, hidden)] of [enumerate(units)]: the Dense layer, the starred
    conditional list, the ReLU layer, evaluated left to right. *)
Definition dense_unit (units : list Z) (name : string)
    (use_layer_norm omit_last_ln : bool) (ih : Z * Z)
    : M Exn World (list Obj) :=
  let '(i, hidden) := ih in
  d <- Dense {| units := hidden;
                activation := None;
                kernel_initializer := "he_normal";
                bias_initializer := "zeros";
                dense_name := name ++ "/dense_" ++ str (i + 1) |} ;;
  ln <- (if use_layer_norm
            && (negb omit_last_ln || negb (i =? len units - 1))
         then l <- LayerNormalization (name ++ "/ln_" ++ str (i + 1)) ;;
              ret [l]
         else ret []) ;;
  r <- ReLU (name ++ "/relu_" ++ str (i + 1)) ;;
  ret (d :: ln ++ [r])%list.

Definition create_dense_stack (units : list Z) (name : string)
    (use_layer_norm omit_last_ln : bool) : M Exn World (list Obj) :=
  flat_mapM (dense_unit units name use_layer_norm omit_last_ln)
            (enumerate units).

Definition self_attention_block (num_heads depth rff_units : Z)
    (name : string) (use_layer_norm : bool) : M Exn World Obj :=
  rff <- Dense {| units := rff_units;
                  activation := Some "relu";
                  kernel_initializer := "he_normal";
                  bias_initializer := "zeros";
                  dense_name := "rff" |} ;;
  SAB {| sab_num_heads := num_heads;
         sab_depth := depth;
         sab_rff := rff;
         sab_use_layer_norm := use_layer_norm;
         sab_query_kernel_initializer := "glorot_uniform";
         sab_query_bias_initializer := "zeros";
         sab_key_kernel_initializer := "glorot_uniform";
         sab_key_bias_initializer := "zeros";
         sab_value_kernel_initializer := "glorot_uniform";
         sab_value_bias_initializer := "zeros";
         sab_output_kernel_initializer := "glorot_uniform";
         sab_output_bias_initializer := "zeros";
         sab_name := name ++ "/sab" |}.

Definition pooling_attention (num_seeds num_heads depth rff_units
    rff_s_units : Z) (name : string) (use_layer_norm : bool)
    : M Exn World Obj :=
  rff <- Dense {| units := rff_units;
                  activation := Some "relu";
                  kernel_initializer := "he_normal";
                  bias_initializer := "zeros";
                  dense_name := "rff" |} ;;
  rff_s <- Dense {| units := rff_s_units;
                    activation := Some "relu";
                    kernel_initializer := "he_normal";
                    bias_initializer := "zeros";
                    dense_name := "rff_s" |} ;;
  PMA {| pma_num_seeds := num_seeds;
         pma_num_heads := num_heads;
         pma_depth := depth;
         pma_rff := rff;
         pma_rff_s := rff_s;
         pma_use_layer_norm := use_layer_norm;
         pma_seed_initializer := "glorot_uniform";
         pma_query_kernel_initializer := "glorot_uniform";
         pma_query_bias_initializer := "zeros";
         pma_key_kernel_initializer := "glorot_uniform";
         pma_key_bias_initializer := "zeros";
         pma_value_kernel_initializer := "glorot_uniform";
         pma_value_bias_initializer := "zeros";
         pma_output_kernel_initializer := "glorot_uniform";
         pma_output_bias_initializer := "zeros";
         pma_name := name ++ "/pma" |}.

End Model.

(** ** Frameworks used to observe the module *)

(** A layer object described by the constructor call that built it. *)
#[warnings="-register-all"]
Inductive layer : Type :=
| Layer (c : call layer).

Definition built_by (l : layer) : call layer :=
  match l with Layer c => c end.

Definition kind (l : layer) : ctor := ctor_of (built_by l).

(** The recording framework: a constructor call is first submitted to
    [check]; when [check] rejects it the exception is raised, otherwise the
    call returns the object that describes it.  The state is the list of
    objects constructed so far, oldest first. *)
Definition recording {Exn : Type} (check : call layer -> option Exn)
    : Framework layer Exn (list layer) :=
  fun c log =>
    match check c with
    | Some e => (log, Raise e)
    | None => ((log ++ [Layer c])%list, Ok (Layer c))
    end.

(** The recording framework in which every constructor call succeeds. *)
Definition symbolic : Framework layer string (list layer) :=
  recording (fun _ => None).

(** A framework that rejects a layer size that is not positive. *)
Definition positive_sizes (c : call layer) : option string :=
  match c with
  | CDense kw => if units kw <=? 0 then Some "ValueError" else None
  | _ => None
  end.

Definition strict : Framework layer string (list layer) :=
  recording positive_sizes.

(** A framework without state: the interpreter state is [unit]. *)
Definition stateless : Framework layer string unit :=
  fun c w => (w, Ok (Layer c)).

(** Instrumentation of a framework: every constructor call is logged, with
    the interpreter state in which it is made, in the order of the calls. *)
Definition logged {Obj Exn World : Type} (fw : Framework Obj Exn World)
    : Framework Obj Exn (World * list (call Obj * World)) :=
  fun c wl =>
    let '(w, log) := wl in
    let '(w', r) := fw c w in
    ((w', (log ++ [(c, w)])%list), r).

(** The calls a computation makes: each constructor call with the interpreter
    state in which it is made, read off the instrumented run. *)
Definition invocations {Obj Exn World A : Type}
    (m : M Exn (World * list (call Obj * World)) A) (w : World)
    : list (call Obj * World) :=
  snd (fst (m (w, []))).

(** The Dense object built for the pair [(i, hidden)] of
    [enumerate(units)] under a recording framework. *)
Definition dense_of (name : string) (ih : Z * Z) : layer :=
  Layer (CDense {| units := snd ih;
                   activation := None;
                   kernel_initializer := "he_normal";
                   bias_initializer := "zeros";
                   dense_name := name ++ "/dense_" ++ str (fst ih + 1) |}).

(** The layers one pair of [enumerate(units)] contributes under a recording
    framework that accepts every call. *)
Definition unit_layers (units : list Z) (name : string)
    (use_layer_norm omit_last_ln : bool) (ih : Z * Z) : list layer :=
  (dense_of name ih
   :: (if use_layer_norm
          && (negb omit_last_ln || negb (fst ih =? len units - 1))
       then [Layer (CLayerNormalization (name ++ "/ln_" ++ str (fst ih + 1)))]
       else [])
   ++ [Layer (CReLU (name ++ "/relu_" ++ str (fst ih + 1)))])%list.

Definition is_dense (l : layer) : bool := ctor_eqb (kind l) KDense.

(** ** What is observed of a run *)

(** The keyword arguments of the row-wise feed-forward layer of [units]
    output units called [name], as both attention factories write them. *)
Definition relu_dense_kwargs (u : Z) (nm : string) : dense_kwargs :=
  {| units := u;
     activation := Some "relu";
     kernel_initializer := "he_normal";
     bias_initializer := "zeros";
     dense_name := nm |}.

(** The exception of an outcome, if any. *)
Definition exn_of {Exn A : Type} (r : result Exn A) : option Exn :=
  match r with Ok _ => None | Raise e => Some e end.

Section Observations.

Context {Obj Exn World : Type}.
Variable fw : Framework Obj Exn World.

(** [run_of w calls w' oe]: made one after the other from the state [w],
    the calls of [calls] each start in the state recorded with them; all of
    them return, leaving the state [w'] ([oe] is [None]), or all but the
    last return and the last raises [e], leaving [w'] ([oe] is [Some e]). *)
Inductive run_of
    : World -> list (call Obj * World) -> World -> option Exn -> Prop :=
| run_done (w : World) : run_of w [] w None
| run_raise (w : World) (c : call Obj) (w' : World) (e : Exn) :
    fw c w = (w', Raise e) -> run_of w [(c, w)] w' (Some e)
| run_step (w : World) (c : call Obj) (w1 : World) (o : Obj)
      (rest : list (call Obj * World)) (w' : World) (oe : option Exn) :
    fw c w = (w1, Ok o) -> run_of w1 rest w' oe ->
    run_of w ((c, w) :: rest) w' oe.

(** [tracks ml m]: the instrumented computation [ml] behaves as [m] on the
    interpreter state and the outcome, and what it appends to the log is a
    run of constructor calls that ends as [m] ends. *)
Definition tracks {A : Type}
    (ml : M Exn (World * list (call Obj * World)) A) (m : M Exn World A)
    : Prop :=
  forall (w : World) (log0 : list (call Obj * World)),
  exists new,
    ml (w, log0) = ((fst (m w), (log0 ++ new)%list), snd (m w))
    /\ run_of w new (fst (m w)) (exn_of (snd (m w))).

(** [no_failure_handling ml m], for a computation [m] and its instrumented
    version [ml]: the instrumented run ends in the state and with the
    outcome of [m]; when a constructor call made during the run raises,
    [m] ends there, with that exception and in the state the call left;
    an exception of [m] was raised by a constructor call of the run; and
    when every constructor call of the run returns, [m] returns. *)
Definition no_failure_handling {A : Type}
    (ml : M Exn (World * list (call Obj * World)) A) (m : M Exn World A)
    : Prop :=
  forall w : World,
    (fst (fst (ml (w, []))) = fst (m w) /\ snd (ml (w, [])) = snd (m w))
    /\ (forall c w0 w1 e,
          In (c, w0) (invocations ml w) -> fw c w0 = (w1, Raise e) ->
          m w = (w1, Raise e))
    /\ (forall e,
          snd (m w) = Raise e ->
          exists c w0,
            In (c, w0) (invocations ml w)
            /\ fw c w0 = (fst (m w), Raise e))
    /\ ((forall c w0,
           In (c, w0) (invocations ml w) -> is_ok (snd (fw c w0)) = true) ->
        is_ok (snd (m w)) = true).

(** A computation that leaves the interpreter state as it found it. *)
Definition adds_no_state {A : Type} (m : M Exn World A) : Prop :=
  forall w : World, fst (m w) = w.

(** Two runs of [m] from any two states end with the same outcome, and
    their instrumented runs make the same constructor calls in the same
    order. *)
Definition deterministic {A : Type}
    (ml : M Exn (World * list (call Obj * World)) A) (m : M Exn World A)
    : Prop :=
  forall w1 w2 : World,
    snd (m w1) = snd (m w2)
    /\ map fst (invocations ml w1) = map fst (invocations ml w2).

(** Instrumented runs from logs that list the same calls: same outcome,
    and logs that still list the same calls. *)
Definition same_calls {A : Type}
    (ml : M Exn (World * list (call Obj * World)) A) : Prop :=
  forall (w1 : World) (l1 : list (call Obj * World))
         (w2 : World) (l2 : list (call Obj * World)),
    map fst l1 = map fst l2 ->
    snd (ml (w1, l1)) = snd (ml (w2, l2))
    /\ map fst (snd (fst (ml (w1, l1)))) = map fst (snd (fst (ml (w2, l2)))).

End Observations.

(** ** Further observations *)

(** The [name] keyword argument of a constructor call. *)
Definition call_name {Obj : Type} (c : call Obj) : string :=
  match c with
  | CDense kw => dense_name kw
  | CLayerNormalization name => name
  | CReLU name => name
  | CSAB kw => sab_name kw
  | CPMA kw => pma_name kw
  end.

Definition layer_name (l : layer) : string := call_name (built_by l).

Definition is_relu (l : layer) : bool := ctor_eqb (kind l) KReLU.

Definition is_layer_norm (l : layer) : bool :=
  ctor_eqb (kind l) KLayerNormalization.

(** The constructor calls the inner list of [create_dense_stack] lists for
    one pair [(i, hidden)], in the order of the list: none of them takes a
    layer object, so they are the same calls for every framework. *)
Definition unit_calls {Obj : Type} (units : list Z) (name : string)
    (use_layer_norm omit_last_ln : bool) (ih : Z * Z) : list (call Obj) :=
  (CDense {| units := snd ih;
             activation := None;
             kernel_initializer := "he_normal";
             bias_initializer := "zeros";
             dense_name := name ++ "/dense_" ++ str (fst ih + 1) |}
   :: (if use_layer_norm
          && (negb omit_last_ln || negb (fst ih =? len units - 1))
       then [CLayerNormalization (name ++ "/ln_" ++ str (fst ih + 1))]
       else [])
   ++ [CReLU (name ++ "/relu_" ++ str (fst ih + 1))])%list.

(** The constructor calls of a whole stack, unit after unit. *)
Definition stack_calls {Obj : Type} (units : list Z) (name : string)
    (use_layer_norm omit_last_ln : bool) : list (call Obj) :=
  flat_map (unit_calls units name use_layer_norm omit_last_ln)
           (enumerate units).

(** [follows ml calls], for an instrumented computation that returns a list:
    the calls a run appends to the log are an initial segment of [calls];
    when the run returns they are all of [calls], and the returned list has
    one element for each of them. *)
Definition follows {Obj Exn World A : Type}
    (ml : M Exn (World * list (call Obj * World)) (list A))
    (calls : list (call Obj)) : Prop :=
  forall (w : World) (log0 : list (call Obj * World)),
  exists new rest,
    snd (fst (ml (w, log0))) = (log0 ++ new)%list
    /\ calls = (map fst new ++ rest)%list
    /\ (forall v, snd (ml (w, log0)) = Ok v ->
        rest = [] /\ List.length v = List.length calls).

(** * Proofs *)

(** ** Runs on concrete inputs *)

Example str_examples : str 1 = "1" /\ str 12 = "12" /\ str 0 = "0".
Proof. repeat split. Qed.

Example enumerate_example : enumerate [64; 32] = [(0, 64); (1, 32)].
Proof. reflexivity. Qed.

(** [create_dense_stack((64, 32), "enc", use_layer_norm=True,
    omit_last_ln=True)]: five layers, the second unit without its layer
    normalization. *)
Example create_dense_stack_example :
  snd (create_dense_stack symbolic [64; 32] "enc" true true [])
  = Ok [dense_of "enc" (0, 64);
        Layer (CLayerNormalization "enc/ln_1");
        Layer (CReLU "enc/relu_1");
        dense_of "enc" (1, 32);
        Layer (CReLU "enc/relu_2")]
  /\ built_by (dense_of "enc" (1, 32))
     = CDense {| units := 32;
                 activation := None;
                 kernel_initializer := "he_normal";
                 bias_initializer := "zeros";
                 dense_name := "enc/dense_2" |}.
Proof. split; reflexivity. Qed.

(** Under the strict framework a size that is not positive stops the stack
    at the rejected Dense call; the layers of the first unit stay built. *)
Example create_dense_stack_rejected :
  create_dense_stack strict [64; 0; 32] "enc" false false []
  = ([dense_of "enc" (0, 64); Layer (CReLU "enc/relu_1")],
     Raise "ValueError").
Proof. reflexivity. Qed.

(** ** The monad *)

Section MonadFacts.

Context {Exn World : Type}.

Lemma bind_ok {A B : Type} (m : M Exn World A) (k : A -> M Exn World B)
    (w w' : World) (a : A) :
  m w = (w', Ok a) -> bind m k w = k a w'.
Proof. intros H. unfold bind. now rewrite H. Qed.

End MonadFacts.

(** ** Runs under a recording framework *)

Lemma enumerate_from_length {A : Type} (l : list A) (s : Z) :
  List.length (enumerate_from s l) = List.length l.
Proof.
  revert s. induction l as [|a l IH]; intros s; simpl; [reflexivity|].
  now rewrite IH.
Qed.

Lemma enumerate_from_nth {A : Type} (l : list A) (s : Z) (i : nat) :
  nth_error (enumerate_from s l) i
  = option_map (fun a => (s + Z.of_nat i, a)) (nth_error l i).
Proof.
  revert s i. induction l as [|a l IH]; intros s i.
  - now destruct i.
  - destruct i as [|i]; simpl.
    + now rewrite Z.add_0_r.
    + rewrite IH. destruct (nth_error l i); simpl; [|reflexivity].
      do 2 f_equal. lia.
Qed.

Lemma enumerate_from_app {A : Type} (l1 l2 : list A) (s : Z) :
  enumerate_from s (l1 ++ l2)
  = (enumerate_from s l1 ++ enumerate_from (s + len l1) l2)%list.
Proof.
  revert s. induction l1 as [|a l1 IH]; intros s; simpl.
  - unfold len. simpl. now rewrite Z.add_0_r.
  - rewrite IH. do 3 f_equal. unfold len. simpl List.length. lia.
Qed.

(** Under the accepting recording framework one pair of [enumerate(units)]
    constructs exactly [unit_layers] and returns them. *)
Lemma dense_unit_symbolic (us : list Z) (name : string) (uln oln : bool)
    (ih : Z * Z) (log : list layer) :
  dense_unit symbolic us name uln oln ih log
  = ((log ++ unit_layers us name uln oln ih)%list,
     Ok (unit_layers us name uln oln ih)).
Proof.
  destruct ih as [i h]. unfold dense_unit, unit_layers. cbn [fst snd].
  destruct (uln && (negb oln || negb (i =? len us - 1)));
    cbv [bind ret Dense LayerNormalization ReLU symbolic recording];
    now rewrite <- ?app_assoc.
Qed.

Lemma flat_mapM_symbolic {A : Type} (f : A -> M string (list layer) (list layer))
    (g : A -> list layer) (xs : list A) :
  (forall x log, f x log = ((log ++ g x)%list, Ok (g x))) ->
  forall log,
    flat_mapM f xs log = ((log ++ flat_map g xs)%list, Ok (flat_map g xs)).
Proof.
  intros Hf. induction xs as [|x xs IH]; intros log; simpl.
  - unfold ret. now rewrite app_nil_r.
  - erewrite bind_ok by apply Hf.
    erewrite bind_ok by apply IH.
    unfold ret. now rewrite app_assoc.
Qed.

(** The accepting recording framework makes [create_dense_stack] return the
    layers it constructed, in the order of construction. *)
Lemma create_dense_stack_symbolic (us : list Z) (name : string)
    (uln oln : bool) (log : list layer) :
  create_dense_stack symbolic us name uln oln log
  = ((log ++ flat_map (unit_layers us name uln oln) (enumerate us))%list,
     Ok (flat_map (unit_layers us name uln oln) (enumerate us))).
Proof.
  unfold create_dense_stack.
  apply flat_mapM_symbolic. intros x l. apply dense_unit_symbolic.
Qed.

(** ** The dense stack: which layers, in which order *)

Section DenseStackLayers.

Variables (us : list Z) (name : string) (uln oln : bool).

Lemma unit_layers_dense (ih : Z * Z) :
  filter is_dense (unit_layers us name uln oln ih) = [dense_of name ih].
Proof.
  unfold unit_layers.
  now destruct (uln && (negb oln || negb (fst ih =? len us - 1))).
Qed.

Lemma unit_layers_ctors (ih : Z * Z) :
  Forall (fun l => kind l = KDense \/ kind l = KLayerNormalization
                   \/ kind l = KReLU)
         (unit_layers us name uln oln ih).
Proof.
  unfold unit_layers.
  destruct (uln && (negb oln || negb (fst ih =? len us - 1)));
    repeat (apply Forall_cons || apply Forall_nil); cbn; auto.
Qed.

Lemma stack_dense (xs : list (Z * Z)) :
  filter is_dense (flat_map (unit_layers us name uln oln) xs)
  = map (dense_of name) xs.
Proof.
  induction xs as [|x xs IH]; [reflexivity|].
  cbn [flat_map map]. rewrite filter_app, unit_layers_dense, IH.
  reflexivity.
Qed.

Lemma stack_ctors (xs : list (Z * Z)) :
  Forall (fun l => kind l = KDense \/ kind l = KLayerNormalization
                   \/ kind l = KReLU)
         (flat_map (unit_layers us name uln oln) xs).
Proof.
  induction xs as [|x xs IH]; [constructor|].
  cbn [flat_map]. apply Forall_app. split; [apply unit_layers_ctors|exact IH].
Qed.

(** The constructors of one unit, by the value of the condition on the
    layer normalization. *)
Lemma unit_layers_kinds (ih : Z * Z) :
  map kind (unit_layers us name uln oln ih)
  = if uln && (negb oln || negb (fst ih =? len us - 1))
    then [KDense; KLayerNormalization; KReLU]
    else [KDense; KReLU].
Proof.
  unfold unit_layers.
  now destruct (uln && (negb oln || negb (fst ih =? len us - 1))).
Qed.

(** Units that all take the same branch of the condition repeat the same
    constructors. *)
Lemma stack_kinds_uniform (b : bool) (xs : list (Z * Z)) :
  (forall ih, In ih xs ->
     uln && (negb oln || negb (fst ih =? len us - 1)) = b) ->
  map kind (flat_map (unit_layers us name uln oln) xs)
  = List.concat (repeat (if b then [KDense; KLayerNormalization; KReLU]
                    else [KDense; KReLU])
                   (List.length xs)).
Proof.
  induction xs as [|x xs IH]; intros Hb; [reflexivity|].
  cbn [flat_map List.length repeat List.concat].
  rewrite map_app, unit_layers_kinds, (Hb x (or_introl eq_refl)).
  rewrite IH; [reflexivity|].
  intros ih Hin. apply Hb. now right.
Qed.

End DenseStackLayers.

Lemma enumerate_from_index {A : Type} (l : list A) (s : Z) (ia : Z * A) :
  In ia (enumerate_from s l) -> s <= fst ia < s + len l.
Proof.
  revert s. induction l as [|a l IH]; intros s; simpl; [tauto|].
  unfold len in *. simpl List.length.
  intros [<- | Hin]; simpl; [lia|].
  specialize (IH _ Hin). lia.
Qed.

Lemma concat_repeat_length {A : Type} (p : list A) (n : nat) :
  List.length (List.concat (repeat p n)) = (n * List.length p)%nat.
Proof.
  induction n as [|n IH]; [reflexivity|].
  cbn [repeat List.concat]. rewrite length_app, IH. simpl. reflexivity.
Qed.

(** C1.  Under the accepting recording framework [create_dense_stack]
    returns exactly the objects it constructed, every one of them built by
    [Dense], [LayerNormalization] or [ReLU], and the [i]-th Dense object
    (counted from 0) is the call with [units[i]] output units, kernel
    initializer "he_normal", bias initializer "zeros", no activation, and the
    name [name/dense_(i+1)]; beyond [len(units)] there is no Dense object. *)
Theorem create_dense_stack_wiring (units : list Z) (name : string)
    (use_layer_norm omit_last_ln : bool) (log : list layer) :
  exists layers : list layer,
    create_dense_stack symbolic units name use_layer_norm omit_last_ln log
    = ((log ++ layers)%list, Ok layers)
    /\ Forall (fun l => kind l = KDense \/ kind l = KLayerNormalization
                        \/ kind l = KReLU) layers
    /\ forall i : nat,
         nth_error (filter is_dense layers) i
         = option_map
             (fun hidden =>
                Layer (CDense {| units := hidden;
                                 activation := None;
                                 kernel_initializer := "he_normal";
                                 bias_initializer := "zeros";
                                 dense_name :=
                                   name ++ "/dense_" ++ str (Z.of_nat i + 1) |}))
             (nth_error units i).
Proof.
  eexists. split; [apply create_dense_stack_symbolic|]. split.
  - apply stack_ctors.
  - intros i. rewrite stack_dense, nth_error_map. unfold enumerate.
    rewrite enumerate_from_nth.
    destruct (nth_error units i); reflexivity.
Qed.

(** C8.  Without layer normalization [omit_last_ln] is not looked at:
    whatever the framework and the interpreter state, the call with
    [omit_last_ln=True] and the call with [omit_last_ln=False] have the same
    outcome and leave the same state. *)
Theorem omit_last_ln_irrelevant_without_layer_norm
    {Obj Exn World : Type} (fw : Framework Obj Exn World)
    (units : list Z) (name : string) (w : World) :
  create_dense_stack fw units name false true w
  = create_dense_stack fw units name false false w.
Proof.
  unfold create_dense_stack.
  generalize (enumerate units). intros xs. revert w.
  induction xs as [|[i hidden] xs IH]; intros w; [reflexivity|].
  cbn [flat_mapM]. unfold bind at 1 3.
  change (dense_unit fw units name false true (i, hidden) w)
    with (dense_unit fw units name false false (i, hidden) w).
  destruct (dense_unit fw units name false false (i, hidden) w) as [w' [ys|e]];
    [|reflexivity].
  unfold bind. rewrite IH. reflexivity.
Qed.

(** C9.  For the empty tuple [create_dense_stack] returns the empty list and
    leaves the interpreter state as it was, whatever the framework, the name
    and the flags; the instrumented run records no constructor call. *)
Theorem create_dense_stack_empty
    {Obj Exn World : Type} (fw : Framework Obj Exn World)
    (name : string) (use_layer_norm omit_last_ln : bool) (w : World) :
  create_dense_stack fw [] name use_layer_norm omit_last_ln w = (w, Ok [])
  /\ invocations
       (create_dense_stack (logged fw) [] name use_layer_norm omit_last_ln) w
     = [].
Proof. split; reflexivity. Qed.

Lemma enumerate_snoc {A : Type} (l : list A) (a : A) :
  enumerate (l ++ [a]) = (enumerate l ++ [(len l, a)])%list.
Proof. unfold enumerate. now rewrite enumerate_from_app. Qed.

Lemma len_snoc {A : Type} (l : list A) (a : A) : len (l ++ [a]) - 1 = len l.
Proof. unfold len. rewrite length_app. simpl. lia. Qed.

(** Every stack over a non-empty tuple ends with the ReLU object of the last
    unit. *)
Lemma stack_ends_with_relu (us : list Z) (name : string) (uln oln : bool) :
  us <> [] ->
  exists front final,
    flat_map (unit_layers us name uln oln) (enumerate us)
    = (front ++ [final])%list
    /\ kind final = KReLU.
Proof.
  intros Hne. destruct (exists_last Hne) as (us' & h & ->).
  rewrite enumerate_snoc, flat_map_app. cbn [flat_map].
  rewrite app_nil_r. unfold unit_layers at 2.
  rewrite app_comm_cons, app_assoc.
  eexists _, _. split; reflexivity.
Qed.

(** With both flags set, every unit but the last has its layer
    normalization, and the last one has none. *)
Lemma stack_kinds_omit_last (us : list Z) (name : string) :
  us <> [] ->
  map kind (flat_map (unit_layers us name true true) (enumerate us))
  = (List.concat (repeat [KDense; KLayerNormalization; KReLU]
                         (List.length us - 1))
     ++ [KDense; KReLU])%list.
Proof.
  intros Hne. destruct (exists_last Hne) as (us' & h & ->).
  rewrite enumerate_snoc, flat_map_app, map_app. f_equal.
  - rewrite (@stack_kinds_uniform _ name true true true).
    + unfold enumerate. rewrite enumerate_from_length, length_app.
      simpl. now replace (List.length us' + 1 - 1)%nat with (List.length us')
        by lia.
    + intros ih Hin. apply enumerate_from_index in Hin.
      rewrite len_snoc. cbn [andb negb orb].
      destruct (Z.eqb_spec (fst ih) (len us')); [lia|reflexivity].
  - cbn [flat_map]. rewrite app_nil_r, unit_layers_kinds. cbn [fst].
    rewrite len_snoc, Z.eqb_refl. reflexivity.
Qed.

(** C4.  For a tuple of [n] sizes, under the accepting recording framework:
    without layer normalization the stack is Dense, ReLU repeated [n] times
    ([2n] layers), whatever [omit_last_ln]; with layer normalization and
    [omit_last_ln] false it is Dense, LayerNormalization, ReLU repeated [n]
    times ([3n] layers); with both flags set and [n >= 1] it is that triple
    [n-1] times followed by Dense, ReLU ([3n-1] layers); and whenever
    [n >= 1] the last layer is a ReLU, whatever the flags. *)
Theorem create_dense_stack_shape (units : list Z) (name : string)
    (log : list layer) :
  let n := List.length units in
  (forall omit_last_ln : bool,
     exists layers,
       create_dense_stack symbolic units name false omit_last_ln log
       = ((log ++ layers)%list, Ok layers)
       /\ map kind layers = List.concat (repeat [KDense; KReLU] n)
       /\ List.length layers = (2 * n)%nat)
  /\ (exists layers,
        create_dense_stack symbolic units name true false log
        = ((log ++ layers)%list, Ok layers)
        /\ map kind layers
           = List.concat (repeat [KDense; KLayerNormalization; KReLU] n)
        /\ List.length layers = (3 * n)%nat)
  /\ ((1 <= n)%nat ->
      exists layers,
        create_dense_stack symbolic units name true true log
        = ((log ++ layers)%list, Ok layers)
        /\ map kind layers
           = (List.concat (repeat [KDense; KLayerNormalization; KReLU]
                                  (n - 1))
              ++ [KDense; KReLU])%list
        /\ List.length layers = (3 * n - 1)%nat)
  /\ ((1 <= n)%nat ->
      forall use_layer_norm omit_last_ln : bool,
      exists layers front final,
        create_dense_stack symbolic units name use_layer_norm omit_last_ln log
        = ((log ++ layers)%list, Ok layers)
        /\ layers = (front ++ [final])%list
        /\ kind final = KReLU).
Proof.
  intros n.
  assert (Hlen : List.length (enumerate units) = n)
    by apply enumerate_from_length.
  assert (Hne : (1 <= n)%nat -> units <> []).
  { intros Hn ->. simpl in n. lia. }
  repeat split.
  - intros oln. eexists.
    split; [apply create_dense_stack_symbolic|].
    assert (Hk : map kind
                   (flat_map (unit_layers units name false oln)
                             (enumerate units))
                 = List.concat (repeat [KDense; KReLU] n)).
    { rewrite (@stack_kinds_uniform _ name false oln false), Hlen;
        [reflexivity|]. intros ih _. reflexivity. }
    split; [exact Hk|].
    rewrite <- (length_map kind), Hk, concat_repeat_length. simpl. lia.
  - eexists. split; [apply create_dense_stack_symbolic|].
    assert (Hk : map kind
                   (flat_map (unit_layers units name true false)
                             (enumerate units))
                 = List.concat
                     (repeat [KDense; KLayerNormalization; KReLU] n)).
    { rewrite (@stack_kinds_uniform _ name true false true), Hlen;
        [reflexivity|]. intros ih _. reflexivity. }
    split; [exact Hk|].
    rewrite <- (length_map kind), Hk, concat_repeat_length. simpl. lia.
  - intros Hn. eexists. split; [apply create_dense_stack_symbolic|].
    pose proof (stack_kinds_omit_last name (Hne Hn)) as Hk. fold n in Hk.
    split; [exact Hk|].
    rewrite <- (length_map kind), Hk, length_app, concat_repeat_length.
    simpl. lia.
  - intros Hn uln oln.
    destruct (stack_ends_with_relu name uln oln (Hne Hn))
      as (front & final & Heq & Hk).
    eexists _, front, final.
    split; [apply create_dense_stack_symbolic|]. split; assumption.
Qed.

(** The shape of the stack for the sizes (3, 5). *)
Lemma create_dense_stack_shape_witness :
  (1 <= List.length [3; 5])%nat
  /\ (exists layers,
        create_dense_stack symbolic [3; 5] "m" true true []
        = (([] ++ layers)%list, Ok layers)
        /\ map kind layers
           = (List.concat (repeat [KDense; KLayerNormalization; KReLU]
                                  (List.length [3; 5] - 1))
              ++ [KDense; KReLU])%list
        /\ List.length layers = (3 * List.length [3; 5] - 1)%nat)
  /\ (forall use_layer_norm omit_last_ln : bool,
      exists layers front final,
        create_dense_stack symbolic [3; 5] "m" use_layer_norm omit_last_ln []
        = (([] ++ layers)%list, Ok layers)
        /\ layers = (front ++ [final])%list
        /\ kind final = KReLU).
Proof.
  assert (H : (1 <= List.length [3; 5])%nat) by (simpl; lia).
  split; [exact H|]. split.
  - exact (proj1 (proj2 (proj2 (create_dense_stack_shape [3; 5] "m" []))) H).
  - exact (proj2 (proj2 (proj2 (create_dense_stack_shape [3; 5] "m" []))) H).
Defined.

(** ** The attention blocks *)

(** C2.  Whatever the framework: once the feed-forward layer is built,
    [self_attention_block] is the call of the external [SAB] constructor, in
    the state the first construction left, with [num_heads], [depth] and
    [use_layer_norm] as given, the four kernel initializers
    "glorot_uniform", the four bias initializers "zeros", and the name
    [name/sab]; what the factory returns is what [SAB] returns. *)
Theorem self_attention_block_forwards
    {Obj Exn World : Type} (fw : Framework Obj Exn World)
    (num_heads depth rff_units : Z) (name : string) (use_layer_norm : bool)
    (w w1 : World) (rff : Obj) :
  Dense fw (relu_dense_kwargs rff_units "rff") w = (w1, Ok rff) ->
  exists kw : sab_kwargs Obj,
    self_attention_block fw num_heads depth rff_units name use_layer_norm w
    = SAB fw kw w1
    /\ sab_num_heads kw = num_heads
    /\ sab_depth kw = depth
    /\ sab_use_layer_norm kw = use_layer_norm
    /\ sab_query_kernel_initializer kw = "glorot_uniform"
    /\ sab_key_kernel_initializer kw = "glorot_uniform"
    /\ sab_value_kernel_initializer kw = "glorot_uniform"
    /\ sab_output_kernel_initializer kw = "glorot_uniform"
    /\ sab_query_bias_initializer kw = "zeros"
    /\ sab_key_bias_initializer kw = "zeros"
    /\ sab_value_bias_initializer kw = "zeros"
    /\ sab_output_bias_initializer kw = "zeros"
    /\ sab_name kw = name ++ "/sab".
Proof.
  intros HD. unfold self_attention_block.
  eexists. split.
  - unfold relu_dense_kwargs in HD. unfold bind. rewrite HD. reflexivity.
  - cbn. repeat split.
Qed.

(** A self-attention block of 2 heads of depth 4 under the accepting
    recording framework. *)
Lemma self_attention_block_forwards_witness :
  exists kw : sab_kwargs layer,
    self_attention_block symbolic 2 4 8 "enc" true []
    = SAB symbolic kw [Layer (CDense (relu_dense_kwargs 8 "rff"))]
    /\ sab_num_heads kw = 2
    /\ sab_depth kw = 4
    /\ sab_use_layer_norm kw = true
    /\ sab_query_kernel_initializer kw = "glorot_uniform"
    /\ sab_key_kernel_initializer kw = "glorot_uniform"
    /\ sab_value_kernel_initializer kw = "glorot_uniform"
    /\ sab_output_kernel_initializer kw = "glorot_uniform"
    /\ sab_query_bias_initializer kw = "zeros"
    /\ sab_key_bias_initializer kw = "zeros"
    /\ sab_value_bias_initializer kw = "zeros"
    /\ sab_output_bias_initializer kw = "zeros"
    /\ sab_name kw = "enc/sab".
Proof.
  apply (@self_attention_block_forwards layer string (list layer) symbolic
           2 4 8 "enc" true []
           [Layer (CDense (relu_dense_kwargs 8 "rff"))]
           (Layer (CDense (relu_dense_kwargs 8 "rff")))).
  reflexivity.
Defined.

(** C3.  Whatever the framework: once the two feed-forward layers are built,
    [pooling_attention] is the call of the external [PMA] constructor, in the
    state the two constructions left, with [num_seeds], [num_heads], [depth]
    and [use_layer_norm] as given, seed initializer "glorot_uniform", the
    four kernel initializers "glorot_uniform", the four bias initializers
    "zeros", and the name [name/pma]; what the factory returns is what [PMA]
    returns. *)
Theorem pooling_attention_forwards
    {Obj Exn World : Type} (fw : Framework Obj Exn World)
    (num_seeds num_heads depth rff_units rff_s_units : Z) (name : string)
    (use_layer_norm : bool) (w w1 w2 : World) (rff rff_s : Obj) :
  Dense fw (relu_dense_kwargs rff_units "rff") w = (w1, Ok rff) ->
  Dense fw (relu_dense_kwargs rff_s_units "rff_s") w1 = (w2, Ok rff_s) ->
  exists kw : pma_kwargs Obj,
    pooling_attention fw num_seeds num_heads depth rff_units rff_s_units
                      name use_layer_norm w
    = PMA fw kw w2
    /\ pma_num_seeds kw = num_seeds
    /\ pma_num_heads kw = num_heads
    /\ pma_depth kw = depth
    /\ pma_use_layer_norm kw = use_layer_norm
    /\ pma_seed_initializer kw = "glorot_uniform"
    /\ pma_query_kernel_initializer kw = "glorot_uniform"
    /\ pma_key_kernel_initializer kw = "glorot_uniform"
    /\ pma_value_kernel_initializer kw = "glorot_uniform"
    /\ pma_output_kernel_initializer kw = "glorot_uniform"
    /\ pma_query_bias_initializer kw = "zeros"
    /\ pma_key_bias_initializer kw = "zeros"
    /\ pma_value_bias_initializer kw = "zeros"
    /\ pma_output_bias_initializer kw = "zeros"
    /\ pma_name kw = name ++ "/pma".
Proof.
  intros HD HS. unfold pooling_attention.
  eexists. split.
  - unfold relu_dense_kwargs in HD, HS. unfold bind. rewrite HD, HS.
    reflexivity.
  - cbn. repeat split.
Qed.

(** A pooling block of 1 seed under the accepting recording framework. *)
Lemma pooling_attention_forwards_witness :
  exists kw : pma_kwargs layer,
    pooling_attention symbolic 1 2 4 8 16 "pool" false []
    = PMA symbolic kw [Layer (CDense (relu_dense_kwargs 8 "rff"));
                       Layer (CDense (relu_dense_kwargs 16 "rff_s"))]
    /\ pma_num_seeds kw = 1
    /\ pma_num_heads kw = 2
    /\ pma_depth kw = 4
    /\ pma_use_layer_norm kw = false
    /\ pma_seed_initializer kw = "glorot_uniform"
    /\ pma_query_kernel_initializer kw = "glorot_uniform"
    /\ pma_key_kernel_initializer kw = "glorot_uniform"
    /\ pma_value_kernel_initializer kw = "glorot_uniform"
    /\ pma_output_kernel_initializer kw = "glorot_uniform"
    /\ pma_query_bias_initializer kw = "zeros"
    /\ pma_key_bias_initializer kw = "zeros"
    /\ pma_value_bias_initializer kw = "zeros"
    /\ pma_output_bias_initializer kw = "zeros"
    /\ pma_name kw = "pool/pma".
Proof.
  apply (@pooling_attention_forwards layer string (list layer) symbolic
           1 2 4 8 16 "pool" false []
           [Layer (CDense (relu_dense_kwargs 8 "rff"))]
           [Layer (CDense (relu_dense_kwargs 8 "rff"));
            Layer (CDense (relu_dense_kwargs 16 "rff_s"))]
           (Layer (CDense (relu_dense_kwargs 8 "rff")))
           (Layer (CDense (relu_dense_kwargs 16 "rff_s"))));
    reflexivity.
Defined.

(** C7.  Under the accepting recording framework [self_attention_block]
    builds one Dense object, with [rff_units] output units, activation
    "relu", kernel initializer "he_normal", bias initializer "zeros" and
    name "rff", and hands it to [SAB] as [rff]; [pooling_attention] builds
    that object and a second one of [rff_s_units] output units named "rff_s",
    with the same activation and initializers, and hands them to [PMA] as
    [rff] and [rff_s]. *)
Theorem attention_blocks_feed_forward
    (num_seeds num_heads depth rff_units rff_s_units : Z) (name : string)
    (use_layer_norm : bool) (log : list layer) :
  let rff := Layer (CDense {| units := rff_units;
                              activation := Some "relu";
                              kernel_initializer := "he_normal";
                              bias_initializer := "zeros";
                              dense_name := "rff" |}) in
  let rff_s := Layer (CDense {| units := rff_s_units;
                                activation := Some "relu";
                                kernel_initializer := "he_normal";
                                bias_initializer := "zeros";
                                dense_name := "rff_s" |}) in
  (exists kw : sab_kwargs layer,
     self_attention_block symbolic num_heads depth rff_units name
                          use_layer_norm log
     = ((log ++ [rff; Layer (CSAB kw)])%list, Ok (Layer (CSAB kw)))
     /\ sab_rff kw = rff)
  /\ (exists kw : pma_kwargs layer,
        pooling_attention symbolic num_seeds num_heads depth rff_units
                          rff_s_units name use_layer_norm log
        = ((log ++ [rff; rff_s; Layer (CPMA kw)])%list, Ok (Layer (CPMA kw)))
        /\ pma_rff kw = rff
        /\ pma_rff_s kw = rff_s).
Proof.
  intros rff rff_s. split.
  - eexists. split.
    + cbv [self_attention_block bind Dense SAB symbolic recording].
      rewrite <- app_assoc. reflexivity.
    + reflexivity.
  - eexists. split.
    + cbv [pooling_attention bind Dense PMA symbolic recording].
      rewrite <- !app_assoc. reflexivity.
    + split; reflexivity.
Qed.

(** ** Failure handling *)

Section Tracking.

Context {Obj Exn World : Type}.
Variable fw : Framework Obj Exn World.

Lemma run_of_app (w w1 w2 : World) (l1 l2 : list (call Obj * World))
    (oe : option Exn) :
  run_of fw w l1 w1 None -> run_of fw w1 l2 w2 oe ->
  run_of fw w (l1 ++ l2) w2 oe.
Proof.
  intros H1. remember None as n eqn:Hn. revert Hn.
  induction H1 as [w|w c w' e Hc|w c wm o rest w' oe' Hc Hrest IH];
    intros Hn H2.
  - exact H2.
  - discriminate.
  - cbn [app]. eapply run_step; [exact Hc|]. now apply IH.
Qed.

(** An exception at the end of a run was raised by a call of the run, and
    the final state is the one that call left. *)
Lemma run_of_raised (w w' : World) (l : list (call Obj * World)) (e : Exn) :
  run_of fw w l w' (Some e) ->
  exists c w0, In (c, w0) l /\ fw c w0 = (w', Raise e).
Proof.
  intros H. remember (Some e) as oe eqn:Hoe. revert Hoe.
  induction H as [w|w c w' e' Hc|w c wm o rest w' oe' Hc Hrest IH];
    intros Hoe.
  - discriminate.
  - injection Hoe as ->. exists c, w. split; [now left|exact Hc].
  - destruct (IH Hoe) as (c' & w0 & Hin & Hraise).
    exists c', w0. split; [now right|exact Hraise].
Qed.

(** A call of a run that raises ends the run: its exception and the state
    it left are those of the run. *)
Lemma run_of_raising_call (w w' : World) (l : list (call Obj * World))
    (oe : option Exn) (c : call Obj) (w0 w1 : World) (e : Exn) :
  run_of fw w l w' oe -> In (c, w0) l -> fw c w0 = (w1, Raise e) ->
  oe = Some e /\ w' = w1.
Proof.
  intros H. induction H as [w|w c' w' e' Hc|w c' wm o rest w' oe' Hc Hrest IH];
    intros Hin Hraise.
  - destruct Hin.
  - destruct Hin as [Heq|[]]. injection Heq as -> ->.
    rewrite Hc in Hraise. injection Hraise as -> ->. now split.
  - destruct Hin as [Heq|Hin].
    + injection Heq as -> ->. rewrite Hc in Hraise. discriminate.
    + now apply IH.
Qed.

Lemma tracks_ret {A : Type} (a : A) : tracks fw (ret a) (ret a).
Proof.
  intros w log0. exists []. cbn. rewrite app_nil_r.
  split; [reflexivity|constructor].
Qed.

Lemma tracks_call (c : call Obj) : tracks fw (logged fw c) (fw c).
Proof.
  intros w log0. exists [(c, w)]. unfold logged.
  destruct (fw c w) as [w' [o|e]] eqn:Hc; cbn.
  - split; [reflexivity|]. eapply run_step; [exact Hc|constructor].
  - split; [reflexivity|]. now apply run_raise.
Qed.

Lemma tracks_bind {A B : Type}
    (ml : M Exn (World * list (call Obj * World)) A) (m : M Exn World A)
    (kl : A -> M Exn (World * list (call Obj * World)) B)
    (k : A -> M Exn World B) :
  tracks fw ml m -> (forall a, tracks fw (kl a) (k a)) ->
  tracks fw (bind ml kl) (bind m k).
Proof.
  intros Hm Hk w log0. destruct (Hm w log0) as (new1 & E1 & R1).
  unfold bind. rewrite E1.
  destruct (m w) as [w1 [a|e]]; cbn [fst snd exn_of] in *.
  - destruct (Hk a w1 (log0 ++ new1)%list) as (new2 & E2 & R2).
    exists (new1 ++ new2)%list. rewrite E2, app_assoc.
    split; [reflexivity|]. eapply run_of_app; eassumption.
  - exists new1. split; [reflexivity|exact R1].
Qed.

Lemma tracks_flat_mapM {A B : Type}
    (fl : A -> M Exn (World * list (call Obj * World)) (list B))
    (f : A -> M Exn World (list B)) (xs : list A) :
  (forall x, tracks fw (fl x) (f x)) ->
  tracks fw (flat_mapM fl xs) (flat_mapM f xs).
Proof.
  intros Hf. induction xs as [|x xs IH]; cbn [flat_mapM].
  - apply tracks_ret.
  - apply tracks_bind; [apply Hf|]. intros ys.
    apply tracks_bind; [exact IH|]. intros rest. apply tracks_ret.
Qed.

Lemma tracks_dense_unit (us : list Z) (name : string) (uln oln : bool)
    (ih : Z * Z) :
  tracks fw (dense_unit (logged fw) us name uln oln ih)
         (dense_unit fw us name uln oln ih).
Proof.
  destruct ih as [i h]. unfold dense_unit.
  apply tracks_bind; [apply tracks_call|]. intros d.
  apply tracks_bind.
  - destruct (uln && (negb oln || negb (i =? len us - 1))).
    + apply tracks_bind; [apply tracks_call|]. intros l. apply tracks_ret.
    + apply tracks_ret.
  - intros ln. apply tracks_bind; [apply tracks_call|]. intros r.
    apply tracks_ret.
Qed.

Lemma tracks_create_dense_stack (us : list Z) (name : string)
    (uln oln : bool) :
  tracks fw (create_dense_stack (logged fw) us name uln oln)
         (create_dense_stack fw us name uln oln).
Proof.
  unfold create_dense_stack. apply tracks_flat_mapM.
  intros x. apply tracks_dense_unit.
Qed.

Lemma tracks_self_attention_block (num_heads depth rff_units : Z)
    (name : string) (uln : bool) :
  tracks fw (self_attention_block (logged fw) num_heads depth rff_units name uln)
         (self_attention_block fw num_heads depth rff_units name uln).
Proof.
  unfold self_attention_block.
  apply tracks_bind; [apply tracks_call|]. intros rff. apply tracks_call.
Qed.

Lemma tracks_pooling_attention
    (num_seeds num_heads depth rff_units rff_s_units : Z)
    (name : string) (uln : bool) :
  tracks fw (pooling_attention (logged fw) num_seeds num_heads depth rff_units
                            rff_s_units name uln)
         (pooling_attention fw num_seeds num_heads depth rff_units
                            rff_s_units name uln).
Proof.
  unfold pooling_attention.
  apply tracks_bind; [apply tracks_call|]. intros rff.
  apply tracks_bind; [apply tracks_call|]. intros rff_s. apply tracks_call.
Qed.

Lemma tracks_no_failure_handling {A : Type}
    (ml : M Exn (World * list (call Obj * World)) A) (m : M Exn World A) :
  tracks fw ml m -> no_failure_handling fw ml m.
Proof.
  intros Ht w. destruct (Ht w []) as (new & E & R).
  unfold invocations. rewrite E. cbn [fst snd app].
  assert (Hraised : forall e, snd (m w) = Raise e ->
            exists c w0, In (c, w0) new /\ fw c w0 = (fst (m w), Raise e)).
  { intros e He. rewrite He in R. now apply run_of_raised in R. }
  repeat split.
  - intros c w0 w1 e Hin Hraise.
    destruct (run_of_raising_call R Hin Hraise) as [Hoe Hw].
    destruct (m w) as [w' [a|e']]; cbn in *; [discriminate|].
    injection Hoe as ->. now subst.
  - exact Hraised.
  - intros Hall. destruct (snd (m w)) as [a|e] eqn:Hr; [reflexivity|].
    destruct (Hraised e eq_refl) as (c & w0 & Hin & Hraise).
    specialize (Hall c w0 Hin). rewrite Hraise in Hall. discriminate.
Qed.

End Tracking.

(** C5.  Whatever the framework and the arguments, none of the three factory
    functions handles or raises a failure of its own: an exception raised by
    a constructor call a factory makes ends the factory with that exception,
    in the state the call left; a factory raises only what one of its
    constructor calls raised; and a factory all of whose constructor calls
    return does return. *)
Theorem factories_have_no_failure_handling
    {Obj Exn World : Type} (fw : Framework Obj Exn World) :
  (forall (units : list Z) (name : string)
          (use_layer_norm omit_last_ln : bool),
     no_failure_handling fw
       (create_dense_stack (logged fw) units name use_layer_norm omit_last_ln)
       (create_dense_stack fw units name use_layer_norm omit_last_ln))
  /\ (forall (num_heads depth rff_units : Z) (name : string)
             (use_layer_norm : bool),
        no_failure_handling fw
          (self_attention_block (logged fw) num_heads depth rff_units name
                                use_layer_norm)
          (self_attention_block fw num_heads depth rff_units name
                                use_layer_norm))
  /\ (forall (num_seeds num_heads depth rff_units rff_s_units : Z)
             (name : string) (use_layer_norm : bool),
        no_failure_handling fw
          (pooling_attention (logged fw) num_seeds num_heads depth rff_units
                             rff_s_units name use_layer_norm)
          (pooling_attention fw num_seeds num_heads depth rff_units
                             rff_s_units name use_layer_norm)).
Proof.
  split; [|split]; intros; apply tracks_no_failure_handling.
  - apply tracks_create_dense_stack.
  - apply tracks_self_attention_block.
  - apply tracks_pooling_attention.
Qed.

(** A Dense layer of size 0 is rejected by the strict framework: the stack
    over (3, 0, 4) ends with that exception, in the state the rejected call
    left. *)
Lemma factories_have_no_failure_handling_witness :
  let first_unit :=
    [Layer (CDense {| units := 3;
                      activation := None;
                      kernel_initializer := "he_normal";
                      bias_initializer := "zeros";
                      dense_name := "m/dense_1" |});
     Layer (CLayerNormalization "m/ln_1");
     Layer (CReLU "m/relu_1")] in
  let rejected :=
    CDense {| units := 0;
              activation := None;
              kernel_initializer := "he_normal";
              bias_initializer := "zeros";
              dense_name := "m/dense_2" |} in
  In (rejected, first_unit)
     (invocations (create_dense_stack (logged strict) [3; 0; 4] "m" true false)
                  [])
  /\ strict rejected first_unit = (first_unit, Raise "ValueError")
  /\ create_dense_stack strict [3; 0; 4] "m" true false []
     = (first_unit, Raise "ValueError").
Proof.
  intros first_unit rejected.
  assert (Hin : In (rejected, first_unit)
                   (invocations
                      (create_dense_stack (logged strict) [3; 0; 4] "m"
                                          true false) [])).
  { do 3 right. left. reflexivity. }
  assert (Hraise : strict rejected first_unit
                   = (first_unit, Raise "ValueError")) by reflexivity.
  split; [exact Hin|]. split; [exact Hraise|].
  exact (proj1 (proj2 (proj1 (factories_have_no_failure_handling strict)
                         [3; 0; 4] "m" true false []))
           rejected first_unit first_unit "ValueError" Hin Hraise).
Defined.

(** ** State and determinism *)

Section Determinism.

Context {Obj Exn World : Type}.
Variable fw : Framework Obj Exn World.

Lemma adds_no_state_ret {A : Type} (a : A) :
  adds_no_state (ret a : M Exn World A).
Proof. intros w. reflexivity. Qed.

Lemma adds_no_state_bind {A B : Type} (m : M Exn World A)
    (k : A -> M Exn World B) :
  adds_no_state m -> (forall a, adds_no_state (k a)) ->
  adds_no_state (bind m k).
Proof.
  intros Hm Hk w. unfold bind. specialize (Hm w).
  destruct (m w) as [w' [a|e]]; cbn in Hm; subst w'; [apply Hk|reflexivity].
Qed.

Lemma adds_no_state_flat_mapM {A B : Type} (f : A -> M Exn World (list B))
    (xs : list A) :
  (forall x, adds_no_state (f x)) -> adds_no_state (flat_mapM f xs).
Proof.
  intros Hf. induction xs as [|x xs IH]; cbn [flat_mapM].
  - apply adds_no_state_ret.
  - apply adds_no_state_bind; [apply Hf|]. intros ys.
    apply adds_no_state_bind; [exact IH|]. intros rest.
    apply adds_no_state_ret.
Qed.

Lemma same_calls_ret {A : Type} (a : A) :
  same_calls (ret a : M Exn (World * list (call Obj * World)) A).
Proof. intros w1 l1 w2 l2 Hl. now split. Qed.

Lemma same_calls_bind {A B : Type}
    (ml : M Exn (World * list (call Obj * World)) A)
    (kl : A -> M Exn (World * list (call Obj * World)) B) :
  same_calls ml -> (forall a, same_calls (kl a)) -> same_calls (bind ml kl).
Proof.
  intros Hm Hk w1 l1 w2 l2 Hl. unfold bind.
  destruct (Hm w1 l1 w2 l2 Hl) as [Hr Hlog].
  destruct (ml (w1, l1)) as [[w1' l1'] r1].
  destruct (ml (w2, l2)) as [[w2' l2'] r2].
  cbn [fst snd] in *. subst r2.
  destruct r1 as [a|e]; [now apply Hk|now split].
Qed.

Lemma same_calls_flat_mapM {A B : Type}
    (fl : A -> M Exn (World * list (call Obj * World)) (list B))
    (xs : list A) :
  (forall x, same_calls (fl x)) -> same_calls (flat_mapM fl xs).
Proof.
  intros Hf. induction xs as [|x xs IH]; cbn [flat_mapM].
  - apply same_calls_ret.
  - apply same_calls_bind; [apply Hf|]. intros ys.
    apply same_calls_bind; [exact IH|]. intros rest. apply same_calls_ret.
Qed.

Lemma tracked_same_calls_deterministic {A : Type}
    (ml : M Exn (World * list (call Obj * World)) A) (m : M Exn World A) :
  tracks fw ml m -> same_calls ml -> deterministic ml m.
Proof.
  intros Ht Hs w1 w2.
  destruct (Hs w1 [] w2 [] eq_refl) as [Hr Hlog].
  destruct (Ht w1 []) as (new1 & E1 & _).
  destruct (Ht w2 []) as (new2 & E2 & _).
  unfold invocations. rewrite E1, E2 in *. cbn [fst snd] in *.
  now split.
Qed.

Section StatelessFramework.

Hypothesis fw_stateless : forall c w, fst (fw c w) = w.

Lemma adds_no_state_dense_unit (us : list Z) (name : string)
    (uln oln : bool) (ih : Z * Z) :
  adds_no_state (dense_unit fw us name uln oln ih).
Proof.
  destruct ih as [i h]. unfold dense_unit.
  apply adds_no_state_bind; [exact (fw_stateless _)|]. intros d.
  apply adds_no_state_bind.
  - destruct (uln && (negb oln || negb (i =? len us - 1))).
    + apply adds_no_state_bind; [exact (fw_stateless _)|]. intros l.
      apply adds_no_state_ret.
    + apply adds_no_state_ret.
  - intros ln. apply adds_no_state_bind; [exact (fw_stateless _)|].
    intros r. apply adds_no_state_ret.
Qed.

Lemma adds_no_state_create_dense_stack (us : list Z) (name : string)
    (uln oln : bool) :
  adds_no_state (create_dense_stack fw us name uln oln).
Proof.
  unfold create_dense_stack. apply adds_no_state_flat_mapM.
  intros x. apply adds_no_state_dense_unit.
Qed.

Lemma adds_no_state_self_attention_block (num_heads depth rff_units : Z)
    (name : string) (uln : bool) :
  adds_no_state
    (self_attention_block fw num_heads depth rff_units name uln).
Proof.
  unfold self_attention_block.
  apply adds_no_state_bind; [exact (fw_stateless _)|]. intros rff.
  exact (fw_stateless _).
Qed.

Lemma adds_no_state_pooling_attention
    (num_seeds num_heads depth rff_units rff_s_units : Z)
    (name : string) (uln : bool) :
  adds_no_state
    (pooling_attention fw num_seeds num_heads depth rff_units rff_s_units
                       name uln).
Proof.
  unfold pooling_attention.
  apply adds_no_state_bind; [exact (fw_stateless _)|]. intros rff.
  apply adds_no_state_bind; [exact (fw_stateless _)|]. intros rff_s.
  exact (fw_stateless _).
Qed.

End StatelessFramework.

Section StateIndependentFramework.

Hypothesis fw_outcome : forall c w1 w2, snd (fw c w1) = snd (fw c w2).

Lemma same_calls_call (c : call Obj) : same_calls (logged fw c).
Proof.
  intros w1 l1 w2 l2 Hl. unfold logged.
  pose proof (fw_outcome c w1 w2) as Hc.
  destruct (fw c w1) as [w1' r1]. destruct (fw c w2) as [w2' r2].
  cbn [fst snd] in *. split; [exact Hc|].
  rewrite !map_app, Hl. reflexivity.
Qed.

Lemma same_calls_dense_unit (us : list Z) (name : string)
    (uln oln : bool) (ih : Z * Z) :
  same_calls (dense_unit (logged fw) us name uln oln ih).
Proof.
  destruct ih as [i h]. unfold dense_unit.
  apply same_calls_bind; [apply same_calls_call|]. intros d.
  apply same_calls_bind.
  - destruct (uln && (negb oln || negb (i =? len us - 1))).
    + apply same_calls_bind; [apply same_calls_call|]. intros l.
      apply same_calls_ret.
    + apply same_calls_ret.
  - intros ln. apply same_calls_bind; [apply same_calls_call|].
    intros r. apply same_calls_ret.
Qed.

Lemma deterministic_create_dense_stack (us : list Z) (name : string)
    (uln oln : bool) :
  deterministic (create_dense_stack (logged fw) us name uln oln)
                (create_dense_stack fw us name uln oln).
Proof.
  apply tracked_same_calls_deterministic.
  - apply tracks_create_dense_stack.
  - unfold create_dense_stack. apply same_calls_flat_mapM.
    intros x. apply same_calls_dense_unit.
Qed.

Lemma deterministic_self_attention_block (num_heads depth rff_units : Z)
    (name : string) (uln : bool) :
  deterministic
    (self_attention_block (logged fw) num_heads depth rff_units name uln)
    (self_attention_block fw num_heads depth rff_units name uln).
Proof.
  apply tracked_same_calls_deterministic.
  - apply tracks_self_attention_block.
  - unfold self_attention_block.
    apply same_calls_bind; [apply same_calls_call|]. intros rff.
    apply same_calls_call.
Qed.

Lemma deterministic_pooling_attention
    (num_seeds num_heads depth rff_units rff_s_units : Z)
    (name : string) (uln : bool) :
  deterministic
    (pooling_attention (logged fw) num_seeds num_heads depth rff_units
                       rff_s_units name uln)
    (pooling_attention fw num_seeds num_heads depth rff_units rff_s_units
                       name uln).
Proof.
  apply tracked_same_calls_deterministic.
  - apply tracks_pooling_attention.
  - unfold pooling_attention.
    apply same_calls_bind; [apply same_calls_call|]. intros rff.
    apply same_calls_bind; [apply same_calls_call|]. intros rff_s.
    apply same_calls_call.
Qed.

End StateIndependentFramework.

End Determinism.

(** C6.  The module keeps no state of its own and its factories are
    deterministic.  Under a framework whose constructors leave the
    interpreter state alone, every factory leaves it alone.  Under a
    framework whose constructors' outcomes do not depend on the interpreter
    state, two calls of a factory with the same arguments, from any two
    states (so also one after the other), have the same outcome and make the
    same constructor calls, with the same arguments, in the same order. *)
Theorem factories_stateless_and_deterministic
    {Obj Exn World : Type} (fw : Framework Obj Exn World) :
  ((forall c w, fst (fw c w) = w) ->
   (forall (units : list Z) (name : string)
           (use_layer_norm omit_last_ln : bool),
      adds_no_state
        (create_dense_stack fw units name use_layer_norm omit_last_ln))
   /\ (forall (num_heads depth rff_units : Z) (name : string)
              (use_layer_norm : bool),
         adds_no_state
           (self_attention_block fw num_heads depth rff_units name
                                 use_layer_norm))
   /\ (forall (num_seeds num_heads depth rff_units rff_s_units : Z)
              (name : string) (use_layer_norm : bool),
         adds_no_state
           (pooling_attention fw num_seeds num_heads depth rff_units
                              rff_s_units name use_layer_norm)))
  /\ ((forall c w1 w2, snd (fw c w1) = snd (fw c w2)) ->
      (forall (units : list Z) (name : string)
              (use_layer_norm omit_last_ln : bool),
         deterministic
           (create_dense_stack (logged fw) units name use_layer_norm
                               omit_last_ln)
           (create_dense_stack fw units name use_layer_norm omit_last_ln))
      /\ (forall (num_heads depth rff_units : Z) (name : string)
                 (use_layer_norm : bool),
            deterministic
              (self_attention_block (logged fw) num_heads depth rff_units
                                    name use_layer_norm)
              (self_attention_block fw num_heads depth rff_units name
                                    use_layer_norm))
      /\ (forall (num_seeds num_heads depth rff_units rff_s_units : Z)
                 (name : string) (use_layer_norm : bool),
            deterministic
              (pooling_attention (logged fw) num_seeds num_heads depth
                                 rff_units rff_s_units name use_layer_norm)
              (pooling_attention fw num_seeds num_heads depth rff_units
                                 rff_s_units name use_layer_norm))).
Proof.
  split.
  - intros Hfw. split; [|split]; intros.
    + now apply adds_no_state_create_dense_stack.
    + now apply adds_no_state_self_attention_block.
    + now apply adds_no_state_pooling_attention.
  - intros Hfw. split; [|split]; intros.
    + now apply deterministic_create_dense_stack.
    + now apply deterministic_self_attention_block.
    + now apply deterministic_pooling_attention.
Qed.

(** The stateless framework leaves the state alone, and the outcome of the
    strict framework does not depend on the objects built before: a
    self-attention block built after another one is the same block, built by
    the same two calls. *)
Lemma factories_stateless_and_deterministic_witness :
  (forall c w, fst (stateless c w) = w)
  /\ adds_no_state (create_dense_stack stateless [3; 5] "m" true true)
  /\ (forall c w1 w2, snd (strict c w1) = snd (strict c w2))
  /\ (let first := self_attention_block strict 2 4 8 "enc" true [] in
      snd (self_attention_block strict 2 4 8 "enc" true []) = snd first
      /\ snd (self_attention_block strict 2 4 8 "enc" true (fst first))
         = snd first
      /\ map fst (invocations
                    (self_attention_block (logged strict) 2 4 8 "enc" true)
                    [])
         = map fst (invocations
                      (self_attention_block (logged strict) 2 4 8 "enc" true)
                      (fst first))).
Proof.
  assert (H1 : forall (c : call layer) (w : unit), fst (stateless c w) = w)
    by reflexivity.
  assert (H2 : forall c w1 w2, snd (strict c w1) = snd (strict c w2)).
  { intros c w1 w2. unfold strict, recording.
    destruct (positive_sizes c); reflexivity. }
  split; [exact H1|]. split.
  - exact (proj1 (proj1 (factories_stateless_and_deterministic stateless) H1)
             [3; 5] "m" true true).
  - split; [exact H2|]. intros first. split; [reflexivity|].
    exact (proj1 (proj2 (proj2 (factories_stateless_and_deterministic strict)
                           H2))
             2 4 8 "enc" true [] (fst first)).
Defined.

(** * Further properties of the dense stack *)

(** ** Layer names *)

Lemma append_cancel_l (p a b : string) : p ++ a = p ++ b -> a = b.
Proof.
  induction p as [|c p IH]; simpl; intros H; [exact H|].
  injection H as H. now apply IH.
Qed.

Lemma prefix_scope (name rest : string) :
  prefix (name ++ "/") (name ++ "/" ++ rest) = true.
Proof.
  induction name as [|c name IH]; simpl; [now destruct rest|].
  destruct (Ascii.ascii_dec c c) as [_|Hne]; [exact IH|now elim Hne].
Qed.

(** The decimal representation determines the integer. *)
Lemma str_inj (a b : Z) : str a = str b -> a = b.
Proof.
  assert (Hparse : forall z,
            NilZero.int_of_string (str z) = Some (Z.to_int z)).
  { intros z. unfold str. apply NilZero.isi; destruct z; simpl; try discriminate;
      intros H; injection H as H;
      now apply DecimalPos.Unsigned.to_uint_nonnil in H. }
  intros H. apply DecimalZ.to_int_inj.
  pose proof (Hparse a) as Ha. rewrite H, Hparse in Ha. now injection Ha.
Qed.

(** The three kinds of names of a stack: equal names have the same kind and
    the same index. *)
Inductive tag : string -> Prop :=
| tag_dense : tag "/dense_"
| tag_ln : tag "/ln_"
| tag_relu : tag "/relu_".

Lemma tagged_name_inj (name t1 t2 : string) (a b : Z) :
  tag t1 -> tag t2 ->
  name ++ t1 ++ str a = name ++ t2 ++ str b -> t1 = t2 /\ a = b.
Proof.
  intros H1 H2 H. apply append_cancel_l in H.
  destruct H1, H2; simpl in H; try discriminate H;
    (split; [reflexivity|]); apply str_inj;
    repeat (injection H as H); exact H.
Qed.

(** Every name of a unit is a tagged name of the unit's index. *)
Lemma unit_layers_names (us : list Z) (name : string) (uln oln : bool)
    (ih : Z * Z) (x : string) :
  In x (map layer_name (unit_layers us name uln oln ih)) ->
  exists t, tag t /\ x = name ++ t ++ str (fst ih + 1).
Proof.
  unfold unit_layers, dense_of.
  destruct (uln && (negb oln || negb (fst ih =? len us - 1)));
    cbn [map app In layer_name built_by call_name dense_name];
    intros H;
    repeat (destruct H as [<-|H];
            [eexists; split; [constructor|reflexivity]|]);
    destruct H.
Qed.

Lemma unit_layers_names_nodup (us : list Z) (name : string) (uln oln : bool)
    (ih : Z * Z) :
  NoDup (map layer_name (unit_layers us name uln oln ih)).
Proof.
  assert (Hne : forall t1 t2, tag t1 -> tag t2 -> t1 <> t2 ->
            name ++ t1 ++ str (fst ih + 1) <> name ++ t2 ++ str (fst ih + 1)).
  { intros t1 t2 H1 H2 Hne H.
    now destruct (tagged_name_inj _ _ _ H1 H2 H). }
  unfold unit_layers, dense_of.
  destruct (uln && (negb oln || negb (fst ih =? len us - 1)));
    cbn [map app layer_name built_by call_name dense_name];
    repeat (apply NoDup_cons;
            [cbn [In]; intros H;
             repeat (destruct H as [H|H];
                     [revert H; apply Hne;
                      [constructor|constructor|discriminate]|]);
             exact H|]);
    apply NoDup_nil.
Qed.

Lemma stack_names_nodup (us : list Z) (name : string) (uln oln : bool)
    (s : Z) (xs : list Z) :
  NoDup (map layer_name
           (flat_map (unit_layers us name uln oln) (enumerate_from s xs))).
Proof.
  revert s. induction xs as [|h xs IH]; intros s; [constructor|].
  cbn [enumerate_from flat_map]. rewrite map_app.
  apply NoDup_app; [apply unit_layers_names_nodup|apply IH|].
  intros x Hhead Htail.
  apply unit_layers_names in Hhead. destruct Hhead as (t1 & Ht1 & ->).
  rewrite flat_map_concat_map, concat_map, map_map in Htail.
  apply in_concat in Htail. destruct Htail as (names & Hnames & Hin).
  apply in_map_iff in Hnames. destruct Hnames as (ih & <- & Hih).
  apply unit_layers_names in Hin. destruct Hin as (t2 & Ht2 & Heq).
  apply (tagged_name_inj _ _ _ Ht1 Ht2) in Heq. destruct Heq as [_ Heq].
  apply enumerate_from_index in Hih. cbn [fst] in Heq. lia.
Qed.

(** X1.  The layers of a stack have pairwise distinct names. *)
Theorem create_dense_stack_names_distinct (units : list Z) (name : string)
    (use_layer_norm omit_last_ln : bool) (log : list layer) :
  exists layers : list layer,
    create_dense_stack symbolic units name use_layer_norm omit_last_ln log
    = ((log ++ layers)%list, Ok layers)
    /\ NoDup (map layer_name layers).
Proof.
  eexists. split; [apply create_dense_stack_symbolic|].
  apply stack_names_nodup.
Qed.

(** X2.  Every layer of a stack is named under the scope [name/]. *)
Theorem create_dense_stack_names_scoped (units : list Z) (name : string)
    (use_layer_norm omit_last_ln : bool) (log : list layer) :
  exists layers : list layer,
    create_dense_stack symbolic units name use_layer_norm omit_last_ln log
    = ((log ++ layers)%list, Ok layers)
    /\ Forall (fun l => prefix (name ++ "/") (layer_name l) = true) layers.
Proof.
  eexists. split; [apply create_dense_stack_symbolic|].
  apply Forall_forall. intros l Hl.
  apply in_flat_map in Hl. destruct Hl as (ih & _ & Hl).
  assert (Hn : In (layer_name l)
                  (map layer_name
                       (unit_layers units name use_layer_norm omit_last_ln ih)))
    by now apply in_map.
  apply unit_layers_names in Hn. destruct Hn as (t & Ht & ->).
  destruct Ht.
  - exact (prefix_scope name ("dense_" ++ str (fst ih + 1))).
  - exact (prefix_scope name ("ln_" ++ str (fst ih + 1))).
  - exact (prefix_scope name ("relu_" ++ str (fst ih + 1))).
Qed.

(** ** The ReLU and LayerNormalization layers of a stack *)

Lemma enumerate_from_map_index {A B : Type} (F : Z -> B) (l : list A)
    (s : nat) :
  map (fun ia => F (fst ia)) (enumerate_from (Z.of_nat s) l)
  = map (fun i : nat => F (Z.of_nat i)) (seq s (List.length l)).
Proof.
  revert s. induction l as [|a l IH]; intros s; [reflexivity|].
  cbn [enumerate_from List.length seq map fst]. f_equal.
  rewrite <- IH. now replace (Z.of_nat s + 1) with (Z.of_nat (S s)) by lia.
Qed.

Section DenseStackFilters.

Variables (us : list Z) (name : string) (uln oln : bool).

(** The condition under which the unit of index [i] gets its layer
    normalization. *)
Let has_layer_norm (i : Z) : bool :=
  uln && (negb oln || negb (i =? len us - 1)).

Lemma unit_layers_relu (ih : Z * Z) :
  filter is_relu (unit_layers us name uln oln ih)
  = [Layer (CReLU (name ++ "/relu_" ++ str (fst ih + 1)))].
Proof.
  unfold unit_layers.
  now destruct (uln && (negb oln || negb (fst ih =? len us - 1))).
Qed.

Lemma unit_layers_layer_norm (ih : Z * Z) :
  filter is_layer_norm (unit_layers us name uln oln ih)
  = if has_layer_norm (fst ih)
    then [Layer (CLayerNormalization (name ++ "/ln_" ++ str (fst ih + 1)))]
    else [].
Proof.
  unfold unit_layers, has_layer_norm.
  now destruct (uln && (negb oln || negb (fst ih =? len us - 1))).
Qed.

Lemma stack_relu (xs : list (Z * Z)) :
  filter is_relu (flat_map (unit_layers us name uln oln) xs)
  = map (fun ih => Layer (CReLU (name ++ "/relu_" ++ str (fst ih + 1)))) xs.
Proof.
  induction xs as [|x xs IH]; [reflexivity|].
  cbn [flat_map map]. now rewrite filter_app, unit_layers_relu, IH.
Qed.

Lemma stack_layer_norm_uniform (b : bool) (xs : list (Z * Z)) :
  (forall ih, In ih xs -> has_layer_norm (fst ih) = b) ->
  filter is_layer_norm (flat_map (unit_layers us name uln oln) xs)
  = if b
    then map (fun ih =>
                Layer (CLayerNormalization
                         (name ++ "/ln_" ++ str (fst ih + 1)))) xs
    else [].
Proof.
  induction xs as [|x xs IH]; intros Hb; [now destruct b|].
  cbn [flat_map map]. rewrite filter_app, unit_layers_layer_norm.
  rewrite (Hb x (or_introl eq_refl)), IH by (intros ih Hin; apply Hb; now right).
  now destruct b.
Qed.

End DenseStackFilters.

(** X3.  A stack has one ReLU layer for each size, in the order of the
    sizes, and the [i]-th one (counted from 0) is named [name/relu_(i+1)],
    whatever the flags. *)
Theorem create_dense_stack_relu_layers (units : list Z) (name : string)
    (use_layer_norm omit_last_ln : bool) (log : list layer) :
  exists layers : list layer,
    create_dense_stack symbolic units name use_layer_norm omit_last_ln log
    = ((log ++ layers)%list, Ok layers)
    /\ filter is_relu layers
       = map (fun i : nat =>
                Layer (CReLU (name ++ "/relu_" ++ str (Z.of_nat i + 1))))
             (seq 0 (List.length units)).
Proof.
  eexists. split; [apply create_dense_stack_symbolic|].
  rewrite stack_relu. unfold enumerate.
  exact (enumerate_from_map_index
           (fun i => Layer (CReLU (name ++ "/relu_" ++ str (i + 1))))
           units 0).
Qed.

(** X4.  The LayerNormalization layers of a stack of [n] sizes: none
    without [use_layer_norm]; with it, those of the units 0 to [n-1], and
    with [omit_last_ln] as well those of the units 0 to [n-2] only; the one
    of unit [i] is named [name/ln_(i+1)]. *)
Theorem create_dense_stack_layer_norm_layers (units : list Z) (name : string)
    (use_layer_norm omit_last_ln : bool) (log : list layer) :
  exists layers : list layer,
    create_dense_stack symbolic units name use_layer_norm omit_last_ln log
    = ((log ++ layers)%list, Ok layers)
    /\ filter is_layer_norm layers
       = map (fun i : nat =>
                Layer (CLayerNormalization
                         (name ++ "/ln_" ++ str (Z.of_nat i + 1))))
             (seq 0 (if use_layer_norm
                     then if omit_last_ln
                          then List.length units - 1
                          else List.length units
                     else 0)).
Proof.
  eexists. split; [apply create_dense_stack_symbolic|].
  pose (F := fun i : Z =>
               Layer (CLayerNormalization (name ++ "/ln_" ++ str (i + 1)))).
  destruct use_layer_norm; [destruct omit_last_ln|].
  - destruct units as [|h0 tl] using rev_ind; [reflexivity|]. clear IHtl.
    rewrite enumerate_snoc, flat_map_app, filter_app.
    rewrite (@stack_layer_norm_uniform _ name true true true).
    + cbn [flat_map]. rewrite app_nil_r, unit_layers_layer_norm. cbn [fst].
      rewrite len_snoc, Z.eqb_refl. cbn [andb orb negb]. rewrite app_nil_r.
      rewrite length_app. cbn [List.length].
      replace (List.length tl + 1 - 1)%nat with (List.length tl) by lia.
      exact (enumerate_from_map_index F tl 0).
    + intros ih Hin. apply enumerate_from_index in Hin. rewrite len_snoc.
      cbn [andb negb orb].
      destruct (Z.eqb_spec (fst ih) (len tl)); [lia|reflexivity].
  - rewrite (@stack_layer_norm_uniform _ name true false true)
      by (intros; reflexivity).
    exact (enumerate_from_map_index F units 0).
  - now rewrite (@stack_layer_norm_uniform _ name false omit_last_ln false)
      by (intros; reflexivity).
Qed.

(** ** The effect of [omit_last_ln] *)

(** X5.  For a single size, [omit_last_ln] with [use_layer_norm] leaves no
    layer normalization at all: whatever the framework and the state, the
    run is the one of the call without [use_layer_norm]. *)
Theorem create_dense_stack_single_omit_last
    {Obj Exn World : Type} (fw : Framework Obj Exn World)
    (hidden : Z) (name : string) (omit_last_ln : bool) (w : World) :
  create_dense_stack fw [hidden] name true true w
  = create_dense_stack fw [hidden] name false omit_last_ln w.
Proof. reflexivity. Qed.

Lemma flat_map_ext_on {A B : Type} (f g : A -> list B) (l : list A) :
  (forall a, In a l -> f a = g a) -> flat_map f l = flat_map g l.
Proof.
  induction l as [|a l IH]; intros H; [reflexivity|].
  cbn [flat_map]. rewrite (H a (or_introl eq_refl)), IH; [reflexivity|].
  intros b Hb. apply H. now right.
Qed.

(** X6.  On a non-empty tuple [omit_last_ln] changes one thing: the stack
    with it is the stack without it, less the LayerNormalization layer that
    stands between the last Dense and the last ReLU. *)
Theorem create_dense_stack_omit_last_only_last (units : list Z)
    (name : string) (log : list layer) :
  units <> [] ->
  exists front dense ln relu,
    snd (create_dense_stack symbolic units name true false log)
    = Ok (front ++ [dense; ln; relu])%list
    /\ snd (create_dense_stack symbolic units name true true log)
       = Ok (front ++ [dense; relu])%list
    /\ kind dense = KDense
    /\ kind ln = KLayerNormalization
    /\ kind relu = KReLU.
Proof.
  intros Hne. destruct (exists_last Hne) as (us & h & ->).
  rewrite !create_dense_stack_symbolic. cbn [snd].
  rewrite enumerate_snoc, !flat_map_app. cbn [flat_map].
  rewrite !app_nil_r.
  rewrite (@flat_map_ext_on _ _
             (unit_layers (us ++ [h]) name true true)
             (unit_layers (us ++ [h]) name true false)).
  - unfold unit_layers at 2 4. cbn [fst andb orb negb].
    rewrite len_snoc, Z.eqb_refl. cbn [negb app].
    eexists _, _, _, _. repeat split.
  - intros ih Hin. apply enumerate_from_index in Hin.
    unfold unit_layers. rewrite len_snoc. cbn [andb orb negb].
    destruct (Z.eqb_spec (fst ih) (len us)); [lia|reflexivity].
Qed.

(** The stacks over (3, 5) with and without [omit_last_ln]. *)
Lemma create_dense_stack_omit_last_only_last_witness :
  exists front dense ln relu,
    snd (create_dense_stack symbolic [3; 5] "m" true false [])
    = Ok (front ++ [dense; ln; relu])%list
    /\ snd (create_dense_stack symbolic [3; 5] "m" true true [])
       = Ok (front ++ [dense; relu])%list
    /\ kind dense = KDense
    /\ kind ln = KLayerNormalization
    /\ kind relu = KReLU.
Proof.
  apply (@create_dense_stack_omit_last_only_last [3; 5] "m" []).
  discriminate.
Defined.

(** X7.  Unless both flags are set, appending sizes to the tuple keeps the
    layers of the shorter stack, names included, and adds layers after
    them. *)
Theorem create_dense_stack_extension (units more : list Z) (name : string)
    (use_layer_norm omit_last_ln : bool) (log : list layer) :
  use_layer_norm && omit_last_ln = false ->
  exists layers added,
    snd (create_dense_stack symbolic units name use_layer_norm omit_last_ln
                            log)
    = Ok layers
    /\ snd (create_dense_stack symbolic (units ++ more) name use_layer_norm
                               omit_last_ln log)
       = Ok (layers ++ added)%list.
Proof.
  intros Hflags. rewrite !create_dense_stack_symbolic. cbn [snd].
  unfold enumerate. rewrite enumerate_from_app, flat_map_app.
  rewrite (@flat_map_ext_on _ _
             (unit_layers (units ++ more) name use_layer_norm omit_last_ln)
             (unit_layers units name use_layer_norm omit_last_ln)
             (enumerate_from 0 units)).
  - eexists _, _. split; reflexivity.
  - intros ih _. unfold unit_layers.
    destruct use_layer_norm, omit_last_ln; try discriminate Hflags;
      reflexivity.
Qed.

(** The stack over (3, 5) starts with the stack over (3). *)
Lemma create_dense_stack_extension_witness :
  exists layers added,
    snd (create_dense_stack symbolic [3] "m" true false []) = Ok layers
    /\ snd (create_dense_stack symbolic ([3] ++ [5]) "m" true false [])
       = Ok (layers ++ added)%list.
Proof.
  apply (@create_dense_stack_extension [3] [5] "m" true false []).
  reflexivity.
Defined.

(** * The dense stack under an arbitrary framework *)

Section StackCalls.

Context {Obj Exn World : Type}.
Variable fw : Framework Obj Exn World.

Lemma follows_dense_unit (us : list Z) (name : string) (uln oln : bool)
    (ih : Z * Z) :
  follows (dense_unit (logged fw) us name uln oln ih)
          (unit_calls us name uln oln ih).
Proof.
  destruct ih as [i h]. intros w log0.
  unfold dense_unit, unit_calls, bind, ret, Dense, LayerNormalization, ReLU,
    logged.
  cbn [fst snd].
  destruct (uln && (negb oln || negb (i =? len us - 1)));
    repeat match goal with
           | |- context [fw ?c ?w0] =>
               lazymatch goal with
               | |- context [match fw c w0 with _ => _ end] =>
                   destruct (fw c w0) as [? [?|?]]
               end
           end;
    cbn [fst snd]; rewrite <- ?app_assoc;
    (eexists _, _; split; [reflexivity|]; split; [cbn; reflexivity|]);
    intros v Hv; try discriminate Hv;
    injection Hv as <-; split; reflexivity.
Qed.

Lemma follows_flat_mapM {A B : Type}
    (fl : A -> M Exn (World * list (call Obj * World)) (list B))
    (g : A -> list (call Obj)) (xs : list A) :
  (forall x, follows (fl x) (g x)) ->
  follows (flat_mapM fl xs) (flat_map g xs).
Proof.
  intros Hf. induction xs as [|x xs IH]; intros w log0.
  - exists [], []. cbn. rewrite app_nil_r. repeat split.
    + now injection H as <-.
  - cbn [flat_mapM flat_map]. unfold bind.
    destruct (Hf x w log0) as (new1 & rest1 & E1 & C1 & R1).
    destruct (fl x (w, log0)) as [[w1 l1] [ys|e]]; cbn [fst snd] in *.
    + destruct (R1 ys eq_refl) as [-> Hlen1]. subst l1.
      rewrite app_nil_r in C1.
      destruct (IH w1 (log0 ++ new1)%list) as (new2 & rest2 & E2 & C2 & R2).
      destruct (flat_mapM fl xs (w1, (log0 ++ new1)%list))
        as [[w2 l2] [zs|e]]; cbn [fst snd ret] in *; subst l2;
        exists (new1 ++ new2)%list, rest2;
        (split; [now rewrite app_assoc|]);
        (split; [now rewrite map_app, <- app_assoc, <- C1, <- C2|]);
        intros v Hv; [|discriminate Hv].
      injection Hv as <-. destruct (R2 zs eq_refl) as [-> Hlen2].
      split; [reflexivity|]. rewrite !length_app. now rewrite Hlen1, Hlen2.
    + subst l1. exists new1, (rest1 ++ flat_map g xs)%list.
      split; [reflexivity|]. split; [now rewrite app_assoc, <- C1|].
      intros v Hv. discriminate Hv.
Qed.

Lemma follows_create_dense_stack (us : list Z) (name : string)
    (uln oln : bool) :
  follows (create_dense_stack (logged fw) us name uln oln)
          (stack_calls us name uln oln).
Proof.
  unfold create_dense_stack, stack_calls. apply follows_flat_mapM.
  intros x. apply follows_dense_unit.
Qed.

(** What the instrumented run says about the plain one. *)
Lemma create_dense_stack_calls_made (us : list Z) (name : string)
    (uln oln : bool) (w : World) :
  exists rest,
    stack_calls us name uln oln
    = (map fst (invocations (create_dense_stack (logged fw) us name uln oln) w)
       ++ rest)%list
    /\ (forall layers,
          snd (create_dense_stack fw us name uln oln w) = Ok layers ->
          rest = []
          /\ List.length layers
             = List.length (@stack_calls Obj us name uln oln)).
Proof.
  destruct (follows_create_dense_stack us name uln oln w [])
    as (new & rest & E & C & R).
  destruct (tracks_create_dense_stack fw us name uln oln w [])
    as (new' & E' & _).
  exists rest. unfold invocations. rewrite E. cbn [app].
  split; [exact C|]. intros layers Hl. apply R. rewrite E'. exact Hl.
Qed.

End StackCalls.

Lemma unit_calls_ctors {Obj : Type} (us : list Z) (name : string)
    (uln oln : bool) (ih : Z * Z) :
  map ctor_of (@unit_calls Obj us name uln oln ih)
  = map kind (unit_layers us name uln oln ih).
Proof.
  unfold unit_calls, unit_layers.
  now destruct (uln && (negb oln || negb (fst ih =? len us - 1))).
Qed.

Lemma stack_calls_ctors {Obj : Type} (us : list Z) (name : string)
    (uln oln : bool) :
  map ctor_of (@stack_calls Obj us name uln oln)
  = map kind (flat_map (unit_layers us name uln oln) (enumerate us)).
Proof.
  unfold stack_calls. generalize (enumerate us). intros xs.
  induction xs as [|x xs IH]; [reflexivity|].
  cbn [flat_map]. now rewrite !map_app, unit_calls_ctors, IH.
Qed.

Lemma stack_calls_length {Obj : Type} (us : list Z) (name : string)
    (uln oln : bool) :
  List.length (@stack_calls Obj us name uln oln)
  = (if uln
     then if oln then 3 * List.length us - 1 else 3 * List.length us
     else 2 * List.length us)%nat.
Proof.
  rewrite <- (length_map ctor_of), stack_calls_ctors.
  assert (Hlen : List.length (enumerate us) = List.length us)
    by apply enumerate_from_length.
  destruct uln; [destruct oln|].
  - destruct us as [|h us]; [reflexivity|].
    rewrite stack_kinds_omit_last by discriminate.
    rewrite length_app, concat_repeat_length. simpl. lia.
  - rewrite (@stack_kinds_uniform _ name true false true)
      by (intros; reflexivity).
    rewrite concat_repeat_length, Hlen. simpl. lia.
  - rewrite (@stack_kinds_uniform _ name false oln false)
      by (intros; reflexivity).
    rewrite concat_repeat_length, Hlen. simpl. lia.
Qed.

(** X8.  Whatever the framework and the state, the constructor calls
    [create_dense_stack] makes are an initial segment of one list of calls
    that the arguments fix (Dense, then LayerNormalization where the unit has
    one, then ReLU, unit after unit); when the factory returns, it has made
    all of them, and returns one layer for each. *)
Theorem create_dense_stack_calls_fixed_by_arguments
    {Obj Exn World : Type} (fw : Framework Obj Exn World)
    (units : list Z) (name : string) (use_layer_norm omit_last_ln : bool)
    (w : World) :
  exists rest,
    stack_calls units name use_layer_norm omit_last_ln
    = (map fst
           (invocations
              (create_dense_stack (logged fw) units name use_layer_norm
                                  omit_last_ln) w)
       ++ rest)%list
    /\ (forall layers,
          snd (create_dense_stack fw units name use_layer_norm omit_last_ln w)
          = Ok layers ->
          rest = []
          /\ List.length layers
             = List.length
                 (@stack_calls Obj units name use_layer_norm omit_last_ln)).
Proof. apply create_dense_stack_calls_made. Qed.

(** A run that stops at the rejected second Dense call: the calls made are
    the first four of the eight the arguments fix. *)
Lemma create_dense_stack_calls_fixed_by_arguments_witness :
  exists rest,
    stack_calls [3; 0; 4] "m" true true
    = (map fst
           (invocations
              (create_dense_stack (logged strict) [3; 0; 4] "m" true true) [])
       ++ rest)%list
    /\ List.length rest = 4%nat
    /\ (forall layers,
          snd (create_dense_stack strict [3; 0; 4] "m" true true [])
          = Ok layers ->
          rest = []
          /\ List.length layers
             = List.length (@stack_calls layer [3; 0; 4] "m" true true)).
Proof.
  destruct (create_dense_stack_calls_fixed_by_arguments
              strict [3; 0; 4] "m" true true []) as (rest & Hcalls & Hok).
  exists rest. split; [exact Hcalls|]. split; [|exact Hok].
  apply (f_equal (@List.length _)) in Hcalls.
  rewrite length_app in Hcalls. cbn in Hcalls. lia.
Defined.

(** X9.  Whatever the framework, a list that [create_dense_stack] returns
    for [n] sizes has [2n] layers without [use_layer_norm], [3n] with it,
    and [3n-1] with [omit_last_ln] as well (none for [n = 0]). *)
Theorem create_dense_stack_length
    {Obj Exn World : Type} (fw : Framework Obj Exn World)
    (units : list Z) (name : string) (use_layer_norm omit_last_ln : bool)
    (w w' : World) (layers : list Obj) :
  create_dense_stack fw units name use_layer_norm omit_last_ln w
  = (w', Ok layers) ->
  List.length layers
  = (if use_layer_norm
     then if omit_last_ln
          then 3 * List.length units - 1
          else 3 * List.length units
     else 2 * List.length units)%nat.
Proof.
  intros Hrun.
  destruct (create_dense_stack_calls_made fw units name use_layer_norm
              omit_last_ln w) as (rest & _ & Hok).
  destruct (Hok layers) as [_ Hlen]; [now rewrite Hrun|].
  rewrite Hlen. apply stack_calls_length.
Qed.

(** Under the stateless framework the stack over (3, 5) with both flags has
    five layers. *)
Lemma create_dense_stack_length_witness :
  List.length
    match snd (create_dense_stack stateless [3; 5] "m" true true tt) with
    | Ok layers => layers
    | Raise _ => []
    end
  = (3 * List.length [3; 5] - 1)%nat.
Proof.
  destruct (create_dense_stack stateless [3; 5] "m" true true tt)
    as [w' [layers|e]] eqn:Hrun; [|discriminate Hrun].
  exact (create_dense_stack_length stateless [3; 5] "m" true true tt Hrun).
Defined.

(** * The attention blocks when a feed-forward layer cannot be built *)

(** X10.  Whatever the framework: when the construction of [rff] raises,
    [self_attention_block] and [pooling_attention] end with that exception in
    the state that construction left, having made no other constructor call;
    when [rff] is built and the construction of [rff_s] raises,
    [pooling_attention] ends with that exception having made these two calls
    only.  [SAB] and [PMA] are never called without their feed-forward
    layers. *)
Theorem attention_blocks_stop_at_failed_dense
    {Obj Exn World : Type} (fw : Framework Obj Exn World)
    (num_seeds num_heads depth rff_units rff_s_units : Z) (name : string)
    (use_layer_norm : bool) (w w1 : World) :
  (forall e,
     Dense fw (relu_dense_kwargs rff_units "rff") w = (w1, Raise e) ->
     (self_attention_block fw num_heads depth rff_units name use_layer_norm w
      = (w1, Raise e)
      /\ invocations
           (self_attention_block (logged fw) num_heads depth rff_units name
                                 use_layer_norm) w
         = [(CDense (relu_dense_kwargs rff_units "rff"), w)])
     /\ (pooling_attention fw num_seeds num_heads depth rff_units rff_s_units
                           name use_layer_norm w
         = (w1, Raise e)
         /\ invocations
              (pooling_attention (logged fw) num_seeds num_heads depth
                                 rff_units rff_s_units name use_layer_norm) w
            = [(CDense (relu_dense_kwargs rff_units "rff"), w)]))
  /\ (forall rff w2 e,
        Dense fw (relu_dense_kwargs rff_units "rff") w = (w1, Ok rff) ->
        Dense fw (relu_dense_kwargs rff_s_units "rff_s") w1
        = (w2, Raise e) ->
        pooling_attention fw num_seeds num_heads depth rff_units rff_s_units
                          name use_layer_norm w
        = (w2, Raise e)
        /\ invocations
             (pooling_attention (logged fw) num_seeds num_heads depth
                                rff_units rff_s_units name use_layer_norm) w
           = [(CDense (relu_dense_kwargs rff_units "rff"), w);
              (CDense (relu_dense_kwargs rff_s_units "rff_s"), w1)]).
Proof.
  unfold relu_dense_kwargs, Dense. split.
  - intros e HD.
    unfold invocations, self_attention_block, pooling_attention, bind, Dense,
      logged.
    rewrite HD. repeat split.
  - intros rff w2 e HD HS.
    unfold invocations, pooling_attention, bind, Dense, logged.
    rewrite HD. cbn [fst snd app]. rewrite HS. split; reflexivity.
Qed.

(** Under the strict framework a feed-forward layer of size 0 is rejected:
    no attention block is built. *)
Lemma attention_blocks_stop_at_failed_dense_witness :
  (self_attention_block strict 2 4 0 "enc" true [] = ([], Raise "ValueError")
   /\ invocations (self_attention_block (logged strict) 2 4 0 "enc" true) []
      = [(CDense (relu_dense_kwargs 0 "rff"), [])])
  /\ (pooling_attention strict 1 2 4 8 0 "pool" true []
      = ([Layer (CDense (relu_dense_kwargs 8 "rff"))], Raise "ValueError")
      /\ invocations
           (pooling_attention (logged strict) 1 2 4 8 0 "pool" true) []
         = [(CDense (relu_dense_kwargs 8 "rff"), []);
            (CDense (relu_dense_kwargs 0 "rff_s"),
             [Layer (CDense (relu_dense_kwargs 8 "rff"))])]).
Proof.
  split.
  - exact (proj1 (proj1 (attention_blocks_stop_at_failed_dense
                           strict 1 2 4 0 0 "enc" true [] [])
                    "ValueError" eq_refl)).
  - exact (proj2 (attention_blocks_stop_at_failed_dense
                    strict 1 2 4 8 0 "pool" true []
                    [Layer (CDense (relu_dense_kwargs 8 "rff"))])
             (Layer (CDense (relu_dense_kwargs 8 "rff")))
             [Layer (CDense (relu_dense_kwargs 8 "rff"))]
             "ValueError" eq_refl eq_refl).
Defined.
